(** * CIFARDataModule: a shallow embedding of
      [src/classifier/data/cifar10_datamodule.py]

    The module is a thin adapter over three external collaborators: the
    torchvision [CIFAR10] dataset, torch's [random_split] / [DataLoader]
    and Lightning's hyper-parameter store.  The adapter itself is
    embedded function by function; the collaborators are modelled by
    what the adapter observes of them:

    - the dataset files under a root directory are a finite map from
      paths to the two stored partitions;
    - [self.hparams] is a dictionary keyed by the *names of the
      arguments of [__init__]*, and attribute access on it raises
      [AttributeError] for a missing key;
    - [random_split] is torch's (release 1.13 and later: lengths that
      sum to 1 are read as fractions of the dataset); the pseudo-random
      permutation it draws is a parameter, known only to be a
      permutation determined by the generator it is given. *)

From Stdlib Require Import QArith_base.
From stdpp Require Import base option list gmap strings pretty numbers.

Set Warnings "-register-all".

Open Scope string_scope.
Open Scope list_scope.
Open Scope Z_scope.

(** ** Python values, exceptions and results *)

(** The values stored in [self.hparams]. *)
Inductive Value : Type :=
| VStr (s : string)
| VInt (n : Z)
| VBool (b : bool)
| VTuple (xs : list Z).

Inductive Exception : Type :=
| AttributeError (msg : string)
| RuntimeError (msg : string)
| ValueError (msg : string)
| TypeError (msg : string).

Inductive Result (A : Type) : Type :=
| Ok (a : A)
| Raise (e : Exception).
Arguments Ok {A} a.
Arguments Raise {A} e.

(** ** Datasets *)

(** A stored image is its raw pixel bytes, a label is an integer. *)
Definition Image : Type := list Z.
Definition Sample : Type := (Image * Z)%type.

(** [transforms.Compose([ToTensor(), Normalize(mean, std)])]: kept
    symbolic, applied lazily per sample by the dataset. *)
Inductive Transform : Type :=
| ToTensor
| Normalize (mean std : list Q)
| Compose (ts : list Transform).

(** The three dataset classes the module builds.  [MkCIFAR10] is an
    instance of torchvision's [CIFAR10] (its data is loaded in the
    constructor), [Subset] is an index-based view. *)
Inductive Dataset : Type :=
| MkCIFAR10 (root : string) (train : bool) (transform : option Transform)
            (data : list Sample)
| ConcatDataset (datasets : list Dataset)
| Subset (dataset : Dataset) (indices : list nat).

(** Python's [sum] over a list of integers. *)
Definition sum (xs : list Z) : Z := foldr Z.add 0 xs.

(** [len(dataset)] *)
Fixpoint len (d : Dataset) : nat :=
  match d with
  | MkCIFAR10 _ _ _ data => length data
  | ConcatDataset ds => sum_list (map len ds)
  | Subset _ indices => length indices
  end.

(** The raw samples a dataset indexes, in index order ([dataset[i]]
    before the transform is applied). *)
Fixpoint samples (d : Dataset) : list Sample :=
  match d with
  | MkCIFAR10 _ _ _ data => data
  | ConcatDataset ds => concat (map samples ds)
  | Subset ds indices =>
      let pool := samples ds in
      omap (fun i => pool !! i) indices
  end.

(** Truth value of an [Optional[Dataset]] attribute: [None] is false,
    and an object defining [__len__] is true iff its length is not 0. *)
Definition truthy (d : option Dataset) : bool :=
  match d with
  | None => false
  | Some ds => negb (len ds =? 0)%nat
  end.

(** ** The dataset files on disk and the CIFAR10 constructor *)

(** What an extracted CIFAR-10 archive holds: the training batches and
    the test batch.  An entry of the disk stands for a complete set of
    files that passes torchvision's integrity check (the checksums of
    the training and of the test batches); a directory with a partial
    or altered copy has no entry. *)
Record CifarFiles : Type := {
  train_list : list Sample;
  test_list : list Sample
}.

Record World : Type := {
  disk : gmap string CifarFiles
}.

Definition dataset_not_found : string :=
  "Dataset not found or corrupted. You can use download=True to download it".

(** [CIFAR10(root, train=train, transform=transform)] with the default
    [download=False]: fails unless the files are present under [root],
    otherwise loads the partition selected by [train]. *)
Definition CIFAR10 (w : World) (root : string) (train : bool)
    (transform : option Transform) : Result Dataset :=
  match disk w !! root with
  | None => Raise (RuntimeError dataset_not_found)
  | Some files =>
      Ok (MkCIFAR10 root train transform
            (if train then train_list files else test_list files))
  end.

(** ** random_split *)

(** [torch.Generator().manual_seed(seed)] *)
Record Generator : Type := { seed : Z }.
Definition manual_seed (s : Z) : Generator := {| seed := s |}.

(** [torch.randperm(n, generator=g).tolist()]: the permutation of
    [0 .. n-1] the generator [g] yields.  The algorithm is torch's; the
    adapter relies only on the result being a permutation that is a
    function of the generator. *)
Class Torch : Type := {
  randperm : Generator -> nat -> list nat;
  randperm_Permutation : forall g n, randperm g n ≡ₚ seq 0 n
}.

(** [itertools.accumulate]: running sums. *)
Fixpoint accumulate_from (acc : Z) (xs : list Z) : list Z :=
  match xs with
  | [] => []
  | x :: xs' => (acc + x) :: accumulate_from (acc + x) xs'
  end.
Definition accumulate (xs : list Z) : list Z := accumulate_from 0 xs.

(** A slice bound as Python normalises it against a sequence of length
    [n]: negative bounds count from the end, then all is clamped. *)
Definition slice_bound (n i : Z) : nat :=
  Z.to_nat (if i <? 0 then Z.max 0 (i + n) else Z.min i n).

(** [l[lo:hi]] *)
Definition slice {A} (l : list A) (lo hi : Z) : list A :=
  let n := Z.of_nat (length l) in
  let lo' := slice_bound n lo in
  let hi' := slice_bound n hi in
  take (hi' - lo')%nat (drop lo' l).

Definition size_mismatch : string :=
  "Sum of input lengths does not equal the length of the input dataset!".

Definition fraction_out_of_range (i : nat) : string :=
  "Fraction at index " +:+ pretty i +:+ " is not between 0 and 1".

(** The loop over [enumerate(lengths)] of the fraction branch: the
    first fraction outside [0, 1] raises, otherwise each fraction [frac]
    yields [floor(len(dataset) * frac)] items.  The lengths are
    integers here, so the product is its own floor. *)
Fixpoint fraction_lengths (n : Z) (i : nat) (lengths : list Z) : Result (list Z) :=
  match lengths with
  | [] => Ok []
  | frac :: rest =>
      if (frac <? 0) || (1 <? frac) then
        Raise (ValueError (fraction_out_of_range i))
      else
        match fraction_lengths n (S i) rest with
        | Ok subset_lengths => Ok (n * frac :: subset_lengths)
        | Raise e => Raise e
        end
  end.

(** [for i in range(remainder): subset_lengths[i % len(subset_lengths)] += 1] *)
Definition round_robin (remainder : nat) (subset_lengths : list Z) : list Z :=
  foldl (fun ls i => alter (Z.add 1) (i mod length ls)%nat ls)
        subset_lengths (seq 0 remainder).

(** The branch [if math.isclose(sum(lengths), 1) and sum(lengths) <= 1]:
    for integer lengths the test is [sum(lengths) == 1]. *)
Definition resolve_fractions (n : Z) (lengths : list Z) : Result (list Z) :=
  if sum lengths =? 1 then
    match fraction_lengths n 0 lengths with
    | Ok subset_lengths =>
        Ok (round_robin (Z.to_nat (n - sum subset_lengths)) subset_lengths)
    | Raise e => Raise e
    end
  else Ok lengths.

Section WithTorch.
Context `{Torch}.

(** [random_split(dataset, lengths, generator)]: lengths that sum to 1
    are first turned into absolute lengths; then the sum is checked,
    one permutation of the whole index range is drawn and cut at the
    running sums of the lengths. *)
Definition random_split (dataset : Dataset) (lengths : list Z)
    (generator : Generator) : Result (list Dataset) :=
  match resolve_fractions (Z.of_nat (len dataset)) lengths with
  | Raise e => Raise e
  | Ok lengths =>
      if negb (sum lengths =? Z.of_nat (len dataset)) then
        Raise (ValueError size_mismatch)
      else
        let indices := randperm generator (Z.to_nat (sum lengths)) in
        Ok (map (fun '(offset, length) =>
                   Subset dataset (slice indices (offset - length) offset))
                (zip (accumulate lengths) lengths))
  end.

End WithTorch.

(** ** The module object *)

(** The arguments of [__init__], with their declared types. *)
Record Config : Type := {
  data_dir : string;
  train_val_test_split : Z * Z * Z;
  batch_size : Z;
  num_worker : Z;
  pin_memory : bool
}.

(** The default argument values of [__init__]. *)
Definition default_config : Config := {|
  data_dir := "data/";
  train_val_test_split := (55000, 5000, 10000);
  batch_size := 64;
  num_worker := 0;
  pin_memory := false
|}.

(** The attributes of a [CIFARDataModule] instance. *)
Record CIFARDataModule : Type := {
  hparams : gmap string Value;
  transforms : Transform;
  data_train : option Dataset;
  data_val : option Dataset;
  data_test : option Dataset
}.

(** [self.save_hyperparameters(logger=False)]: stores every argument of
    [__init__] under the argument's own name. *)
Definition save_hyperparameters (cfg : Config) : gmap string Value :=
  let '(a, b, c) := train_val_test_split cfg in
  <["data_dir" := VStr (data_dir cfg)]>
  (<["train_val_test_split" := VTuple [a; b; c]]>
  (<["batch_size" := VInt (batch_size cfg)]>
  (<["num_worker" := VInt (num_worker cfg)]>
  (<["pin_memory" := VBool (pin_memory cfg)]> ∅)))).

Definition __init__ (cfg : Config) : CIFARDataModule := {|
  hparams := save_hyperparameters cfg;
  transforms :=
    Compose [ToTensor;
             Normalize [1 # 2; 1 # 2; 1 # 2]%Q [1 # 2; 1 # 2; 1 # 2]%Q];
  data_train := None;
  data_val := None;
  data_test := None
|}.

(** ** Methods: a state and exception monad over [self] *)

Definition M (A : Type) : Type :=
  CIFARDataModule -> Result (A * CIFARDataModule).

Definition ret {A} (a : A) : M A := fun self => Ok (a, self).

Definition bind {A B} (m : M A) (k : A -> M B) : M B :=
  fun self =>
    match m self with
    | Ok (a, self') => k a self'
    | Raise e => Raise e
    end.

Definition lift {A} (r : Result A) : M A :=
  fun self =>
    match r with
    | Ok a => Ok (a, self)
    | Raise e => Raise e
    end.

Definition get_self : M CIFARDataModule := fun self => Ok (self, self).
Definition put_self (self' : CIFARDataModule) : M unit :=
  fun _ => Ok (tt, self').

Notation "'let*' x ':=' m 'in' k" := (bind m (fun x => k))
  (at level 10, x name, m at level 100, k at level 200).

(** [self.hparams.<name>]: attribute access on the hyper-parameter
    store; a name that was never saved raises [AttributeError] (the
    payload is the missing name). *)
Definition hparam (name : string) : M Value :=
  fun self =>
    match hparams self !! name with
    | Some v => Ok (v, self)
    | None => Raise (AttributeError name)
    end.

Definition as_path (v : Value) : Result string :=
  match v with
  | VStr s => Ok s
  | _ => Raise (TypeError "expected str, bytes or os.PathLike object")
  end.

Definition as_lengths (v : Value) : Result (list Z) :=
  match v with
  | VTuple xs => Ok xs
  | _ => Raise (TypeError "object is not iterable")
  end.

(** [num_classes] (a property) *)
Definition num_classes : M Z := ret 2.

Section Methods.
Context `{Torch}.

(** [setup(self, stage)], run against the files of the world [w]. *)
Definition setup (w : World) (stage : option string) : M unit :=
  let* self := get_self in
  if negb (truthy (data_train self)) && negb (truthy (data_val self))
     && negb (truthy (data_test self)) then
    let* root := hparam "data_dir" in
    let* root := lift (as_path root) in
    let* trainset := lift (CIFAR10 w root true (Some (transforms self))) in
    let* root' := hparam "data_dir" in
    let* root' := lift (as_path root') in
    let* testset := lift (CIFAR10 w root' true (Some (transforms self))) in
    let dataset := ConcatDataset [trainset; testset] in
    let* lengths := hparam "train_val_test_split" in
    let* lengths := lift (as_lengths lengths) in
    let* parts :=
      lift (random_split dataset lengths (manual_seed 42)) in
    match parts with
    | [train; val; test] =>
        put_self {| hparams := hparams self;
                    transforms := transforms self;
                    data_train := Some train;
                    data_val := Some val;
                    data_test := Some test |}
    | _ => lift (Raise (ValueError "wrong number of values to unpack"))
    end
  else ret tt.

End Methods.

(** What [DataLoader(dataset=..., batch_size=..., num_workers=...,
    pin_memory=..., shuffle=...)] was handed.  The constructor is
    torch's; the adapter only threads these five arguments. *)
Record DataLoader : Type := {
  dl_dataset : option Dataset;
  dl_batch_size : Value;
  dl_num_workers : Value;
  dl_pin_memory : Value;
  dl_shuffle : bool
}.

(** The keyword arguments are evaluated left to right before the call. *)
Definition train_dataloader : M DataLoader :=
  let* self := get_self in
  let dataset := data_train self in
  let* batch_size := hparam "batch_size" in
  let* num_workers := hparam "num_workers" in
  let* pin_memory := hparam "pin_memory" in
  ret {| dl_dataset := dataset; dl_batch_size := batch_size;
         dl_num_workers := num_workers; dl_pin_memory := pin_memory;
         dl_shuffle := true |}.

Definition val_dataloader : M DataLoader :=
  let* self := get_self in
  let dataset := data_val self in
  let* batch_size := hparam "batch_size" in
  let* num_workers := hparam "num_workers" in
  let* pin_memory := hparam "pin_memory" in
  ret {| dl_dataset := dataset; dl_batch_size := batch_size;
         dl_num_workers := num_workers; dl_pin_memory := pin_memory;
         dl_shuffle := false |}.

Definition test_dataloader : M DataLoader :=
  let* self := get_self in
  let dataset := data_test self in
  let* batch_size := hparam "batch_size" in
  let* num_workers := hparam "num_workers" in
  let* pin_memory := hparam "pin_memory" in
  ret {| dl_dataset := dataset; dl_batch_size := batch_size;
         dl_num_workers := num_workers; dl_pin_memory := pin_memory;
         dl_shuffle := false |}.

(** [teardown(self, stage)]: [pass] *)
Definition teardown (stage : option string) : M unit := ret tt.

(** [state_dict(self)]: [return {}] *)
Definition state_dict : M (gmap string Value) := ret ∅.

(** [load_state_dict(self, state_dict)]: [pass] *)
Definition load_state_dict (state_dict : gmap string Value) : M unit :=
  ret tt.

(** ** Acquiring the files: prepare_data *)

(** What the distribution site does when the archive is requested: it
    cannot be reached, it delivers bytes that fail the checksum, or it
    delivers the archive. *)
Inductive Remote : Type :=
| Unreachable
| Corrupted
| Serves (files : CifarFiles).

(** Exceptions of a call that may touch the network: those above, and
    urllib's [URLError]. *)
Inductive IOException : Type :=
| PyException (e : Exception)
| URLError (reason : string).

Inductive Outcome (A : Type) : Type :=
| Done (a : A)
| Failed (e : IOException).
Arguments Done {A} a.
Arguments Failed {A} e.

Definition and_then {A B} (o : Outcome A) (k : A -> Outcome B) : Outcome B :=
  match o with
  | Done a => k a
  | Failed e => Failed e
  end.

Definition of_result {A} (r : Result A) : Outcome A :=
  match r with
  | Ok a => Done a
  | Raise e => Failed (PyException e)
  end.

Notation "'try*' x ':=' m 'in' k" := (and_then m (fun x => k))
  (at level 10, x name, m at level 100, k at level 200).

Definition archive_corrupted : string := "File not found or corrupted.".

(** [CIFAR10.download()]: nothing is fetched when the verified files
    are already under [root]; otherwise (nothing there, or a copy that
    fails the integrity check) the archive is requested and, if it
    arrives intact, extracted under [root]. *)
Definition download (remote : Remote) (w : World) (root : string) : Outcome World :=
  match disk w !! root with
  | Some _ => Done w
  | None =>
      match remote with
      | Serves files => Done {| disk := <[root := files]> (disk w) |}
      | Corrupted => Failed (PyException (RuntimeError archive_corrupted))
      | Unreachable => Failed (URLError "urlopen error")
      end
  end.

(** [CIFAR10(root, train=train, download=True)]: download first, then
    the constructor proper.  The world after the call is returned with
    the dataset. *)
Definition CIFAR10_download (remote : Remote) (w : World) (root : string)
    (train : bool) : Outcome (Dataset * World) :=
  try* w' := download remote w root in
  try* dataset := of_result (CIFAR10 w' root train None) in
  Done (dataset, w').

(** [prepare_data(self)]: reads [self], assigns nothing to it, and
    returns the world it leaves behind; the two datasets it constructs
    are dropped. *)
Definition prepare_data (remote : Remote) (w : World)
    (self : CIFARDataModule) : Outcome World :=
  try* root := of_result (hparam "data_dir" self) in
  try* root := of_result (as_path (fst root)) in
  try* train := CIFAR10_download remote w root true in
  try* root' := of_result (hparam "data_dir" self) in
  try* root' := of_result (as_path (fst root')) in
  try* test := CIFAR10_download remote (snd train) root' false in
  Done (snd test).

(** ** Auxiliary definitions for the statements *)

(** The part of [random_split] that follows the fraction branch: the
    sum check, the permutation and the cuts. *)
Definition split_lengths `{Torch} (dataset : Dataset) (lengths : list Z)
    (generator : Generator) : Result (list Dataset) :=
  if negb (sum lengths =? Z.of_nat (len dataset)) then
    Raise (ValueError size_mismatch)
  else
    let indices := randperm generator (Z.to_nat (sum lengths)) in
    Ok (map (fun '(offset, length) =>
               Subset dataset (slice indices (offset - length) offset))
            (zip (accumulate lengths) lengths)).

(** The three index lists cut out of one permutation. *)
Definition cut3 (indices : list nat) (a b c : Z) : list nat * list nat * list nat :=
  (take (Z.to_nat a) indices,
   take (Z.to_nat b) (drop (Z.to_nat a) indices),
   take (Z.to_nat c) (drop (Z.to_nat (a + b)) indices)).

(** The pool [setup] builds from the files found under [root]
    (source lines 83 to 86). *)
Definition setup_pool (root : string) (tf : Transform) (files : CifarFiles) : Dataset :=
  ConcatDataset
    [MkCIFAR10 root true (Some tf) (train_list files);
     MkCIFAR10 root true (Some tf) (train_list files)].

(** The instance with its three handles assigned. *)
Definition with_splits (self : CIFARDataModule) (train val test : Dataset) : CIFARDataModule :=
  {| hparams := hparams self;
     transforms := transforms self;
     data_train := Some train;
     data_val := Some val;
     data_test := Some test |}.

(** The guard of [setup]: no handle is assigned a non-empty dataset. *)
Definition unmaterialized (self : CIFARDataModule) : bool :=
  negb (truthy (data_train self)) && negb (truthy (data_val self))
  && negb (truthy (data_test self)).


(** The pool the specification describes: the train partition followed
    by the test partition. *)
Definition train_then_test (files : CifarFiles) : list Sample :=
  train_list files ++ test_list files.

(** ** Concrete worlds and a concrete permutation, for evaluation *)

(** A generator-independent instance of the permutation: the index
    range reversed. *)
Definition reversing_torch : Torch := {|
  randperm := fun _ n => reverse (seq 0 n);
  randperm_Permutation := fun _ n => reverse_Permutation (seq 0 n)
|}.

Definition files_of_sizes (n_train n_test : nat) : CifarFiles := {|
  train_list := replicate n_train ([], 0);
  test_list := replicate n_test ([], 1)
|}.

(** A world with the files under the default directory. *)
Definition world_with (files : CifarFiles) : World :=
  {| disk := {[ "data/" := files ]} |}.

Definition tiny_files : CifarFiles := {|
  train_list := [([10], 0); ([11], 1); ([12], 2)];
  test_list := [([20], 3); ([21], 4)]
|}.


Definition with_sizes (a b c : Z) : Config := {|
  data_dir := "data/";
  train_val_test_split := (a, b, c);
  batch_size := 64;
  num_worker := 0;
  pin_memory := false
|}.

(** A world with nothing on disk. *)
Definition empty_world : World := {| disk := ∅ |}.


(** The instance [setup] leaves on the three-sample files with sizes
    (3, 2, 1) under the reversing permutation. *)
Definition tiny_materialized : CIFARDataModule :=
  let cfg := with_sizes 3 2 1 in
  let pool := setup_pool "data/" (transforms (__init__ cfg)) tiny_files in
  with_splits (__init__ cfg) (Subset pool [5; 4; 3]%nat)
    (Subset pool [2; 1]%nat) (Subset pool [0]%nat).

(** * Properties *)

(** ** The hyper-parameter store of a constructed instance *)

Section Hparams.
Variable cfg : Config.

Lemma hparams_data_dir :
  hparams (__init__ cfg) !! "data_dir" = Some (VStr (data_dir cfg)).
Proof.
  cbn. unfold save_hyperparameters.
  destruct (train_val_test_split cfg) as [[a b] c].
  by simplify_map_eq.
Qed.

Lemma hparams_train_val_test_split :
  hparams (__init__ cfg) !! "train_val_test_split" =
  Some (let '(a, b, c) := train_val_test_split cfg in VTuple [a; b; c]).
Proof.
  cbn. unfold save_hyperparameters.
  destruct (train_val_test_split cfg) as [[a b] c].
  by simplify_map_eq.
Qed.

Lemma hparams_batch_size :
  hparams (__init__ cfg) !! "batch_size" = Some (VInt (batch_size cfg)).
Proof.
  cbn. unfold save_hyperparameters.
  destruct (train_val_test_split cfg) as [[a b] c].
  by simplify_map_eq.
Qed.

(** The worker count is saved under the name of the argument that
    carries it, [num_worker]; nothing is saved as [num_workers]. *)
Lemma hparams_num_worker :
  hparams (__init__ cfg) !! "num_worker" = Some (VInt (num_worker cfg)).
Proof.
  cbn. unfold save_hyperparameters.
  destruct (train_val_test_split cfg) as [[a b] c].
  by simplify_map_eq.
Qed.

Lemma hparams_num_workers :
  hparams (__init__ cfg) !! "num_workers" = None.
Proof.
  cbn. unfold save_hyperparameters.
  destruct (train_val_test_split cfg) as [[a b] c].
  by simplify_map_eq.
Qed.

End Hparams.

(** ** Slices and running sums *)

Lemma slice_within {A} (l : list A) (lo hi : Z) :
  0 <= lo -> lo <= hi -> hi <= Z.of_nat (length l) ->
  slice l lo hi = take (Z.to_nat (hi - lo)) (drop (Z.to_nat lo) l).
Proof.
  intros Hlo Hhi Hlen. unfold slice, slice_bound.
  destruct (Z.ltb_spec lo 0); [lia|].
  destruct (Z.ltb_spec hi 0); [lia|].
  f_equal; [lia | f_equal; lia].
Qed.

Lemma accumulate_three (a b c : Z) :
  accumulate [a; b; c] = [a; a + b; a + b + c].
Proof. unfold accumulate; cbn. by rewrite Z.add_0_l. Qed.

Lemma sum_three (a b c : Z) : sum [a; b; c] = a + b + c.
Proof. unfold sum; cbn. lia. Qed.

(** ** random_split on three lengths *)

Lemma resolve_fractions_absolute n lengths :
  sum lengths ≠ 1 -> resolve_fractions n lengths = Ok lengths.
Proof.
  intros Hne. unfold resolve_fractions.
  by destruct (Z.eqb_spec (sum lengths) 1).
Qed.

Lemma resolve_fractions_three n a b c :
  a + b + c = 1 ->
  0 <= a <= 1 -> 0 <= b <= 1 -> 0 <= c <= 1 ->
  resolve_fractions n [a; b; c] = Ok [n * a; n * b; n * c].
Proof.
  intros Hsum Ha Hb Hc. unfold resolve_fractions.
  rewrite sum_three, Hsum, Z.eqb_refl. cbn [fraction_lengths].
  destruct (Z.ltb_spec a 0); [lia|]. destruct (Z.ltb_spec 1 a); [lia|].
  destruct (Z.ltb_spec b 0); [lia|]. destruct (Z.ltb_spec 1 b); [lia|].
  destruct (Z.ltb_spec c 0); [lia|]. destruct (Z.ltb_spec 1 c); [lia|].
  cbn [orb]. rewrite sum_three.
  replace (n - (n * a + n * b + n * c)) with 0 by nia.
  reflexivity.
Qed.

Lemma resolve_fractions_out_of_range n a b c :
  a + b + c = 1 ->
  ¬ (0 <= a <= 1 /\ 0 <= b <= 1 /\ 0 <= c <= 1) ->
  exists i, resolve_fractions n [a; b; c]
            = Raise (ValueError (fraction_out_of_range i)).
Proof.
  intros Hsum Hout. unfold resolve_fractions.
  rewrite sum_three, Hsum, Z.eqb_refl. cbn [fraction_lengths].
  destruct (Z.ltb_spec a 0); [by eexists|].
  destruct (Z.ltb_spec 1 a); [by eexists|].
  destruct (Z.ltb_spec b 0); [by eexists|].
  destruct (Z.ltb_spec 1 b); [by eexists|].
  destruct (Z.ltb_spec c 0); [by eexists|].
  destruct (Z.ltb_spec 1 c); [by eexists|].
  lia.
Qed.

Section RandomSplit.
Context `{Torch}.

Lemma randperm_length g n : length (randperm g n) = n.
Proof. by rewrite (randperm_Permutation g n), length_seq. Qed.

Lemma random_split_resolved ds lengths g :
  random_split ds lengths g =
    match resolve_fractions (Z.of_nat (len ds)) lengths with
    | Raise e => Raise e
    | Ok lengths' => split_lengths ds lengths' g
    end.
Proof. reflexivity. Qed.

Lemma random_split_absolute ds lengths g :
  sum lengths ≠ 1 -> random_split ds lengths g = split_lengths ds lengths g.
Proof.
  intros Hne. by rewrite random_split_resolved, resolve_fractions_absolute.
Qed.

Lemma split_lengths_mismatch ds lengths g :
  sum lengths ≠ Z.of_nat (len ds) ->
  split_lengths ds lengths g = Raise (ValueError size_mismatch).
Proof.
  intros Hne. unfold split_lengths.
  by destruct (Z.eqb_spec (sum lengths) (Z.of_nat (len ds))).
Qed.

Lemma split_lengths_three_parts ds a b c g :
  a + b + c = Z.of_nat (len ds) ->
  exists p1 p2 p3, split_lengths ds [a; b; c] g = Ok [p1; p2; p3].
Proof.
  intros Hsum. unfold split_lengths.
  rewrite sum_three, Hsum, Z.eqb_refl. cbn. eauto.
Qed.

Lemma split_lengths_three ds a b c g :
  0 <= a -> 0 <= b -> 0 <= c ->
  a + b + c = Z.of_nat (len ds) ->
  split_lengths ds [a; b; c] g =
    let '(i1, i2, i3) := cut3 (randperm g (len ds)) a b c in
    Ok [Subset ds i1; Subset ds i2; Subset ds i3].
Proof.
  intros Ha Hb Hc Hsum. unfold split_lengths, cut3.
  rewrite sum_three, Hsum, Z.eqb_refl, Nat2Z.id, accumulate_three. cbn.
  set (idx := randperm g (len ds)).
  assert (Hlen : Z.of_nat (length idx) = a + b + c)
    by (unfold idx; rewrite randperm_length; lia).
  rewrite !slice_within by lia.
  rewrite Z.sub_diag, !Z.add_simpl_r, Z.sub_0_r, !Z.add_simpl_l.
  reflexivity.
Qed.

Lemma random_split_mismatch ds lengths g :
  sum lengths ≠ 1 ->
  sum lengths ≠ Z.of_nat (len ds) ->
  random_split ds lengths g = Raise (ValueError size_mismatch).
Proof.
  intros Hone Hne.
  by rewrite random_split_absolute, split_lengths_mismatch.
Qed.

Lemma random_split_three ds a b c g :
  0 <= a -> 0 <= b -> 0 <= c ->
  a + b + c ≠ 1 ->
  a + b + c = Z.of_nat (len ds) ->
  random_split ds [a; b; c] g =
    let '(i1, i2, i3) := cut3 (randperm g (len ds)) a b c in
    Ok [Subset ds i1; Subset ds i2; Subset ds i3].
Proof.
  intros Ha Hb Hc Hone Hsum.
  rewrite random_split_absolute by (by rewrite sum_three).
  by apply split_lengths_three.
Qed.

(** Lengths that sum to 1, each 0 or 1: the subsets take the
    corresponding multiples of the whole dataset. *)
Lemma random_split_fractions ds a b c g :
  a + b + c = 1 ->
  0 <= a <= 1 -> 0 <= b <= 1 -> 0 <= c <= 1 ->
  let n := Z.of_nat (len ds) in
  random_split ds [a; b; c] g =
    let '(i1, i2, i3) :=
      cut3 (randperm g (len ds)) (n * a) (n * b) (n * c) in
    Ok [Subset ds i1; Subset ds i2; Subset ds i3].
Proof.
  intros Hsum Ha Hb Hc n.
  rewrite random_split_resolved, resolve_fractions_three by done.
  apply split_lengths_three; nia.
Qed.

End RandomSplit.

(** ** Stepping through a method body *)

Lemma bind_get_self {B} (k : CIFARDataModule -> M B) self :
  bind get_self k self = k self self.
Proof. reflexivity. Qed.

Lemma bind_hparam {B} name v (k : Value -> M B) self :
  hparams self !! name = Some v ->
  bind (hparam name) k self = k v self.
Proof. intros Hv. unfold bind, hparam. by rewrite Hv. Qed.

Lemma bind_hparam_missing {B} name (k : Value -> M B) self :
  hparams self !! name = None ->
  bind (hparam name) k self = Raise (AttributeError name).
Proof. intros Hv. unfold bind, hparam. by rewrite Hv. Qed.

Lemma bind_lift {A B} (r : Result A) (k : A -> M B) self :
  bind (lift r) k self =
    match r with Ok a => k a self | Raise e => Raise e end.
Proof. unfold bind, lift. by destruct r. Qed.

(** One step of a method body: an attribute of [self.hparams] is
    read, or a fallible call is made. *)
Ltac step_hparam h name :=
  let v := fresh "v" in
  let Hv := fresh "Hv" in
  destruct (h !! name) as [v|] eqn:Hv;
  [rewrite !(bind_hparam name v) by done
  |by rewrite !bind_hparam_missing].

Ltac step_lift r :=
  let a := fresh "a" in
  rewrite !bind_lift; destruct r as [a|]; [cbv beta iota|done].

(** ** setup on a freshly constructed instance *)

Section Setup.
Context `{Torch}.

Lemma setup_materialized w stage self :
  truthy (data_train self) || truthy (data_val self)
    || truthy (data_test self) = true ->
  setup w stage self = Ok (tt, self).
Proof.
  intros Hany. unfold setup, bind, get_self.
  destruct (truthy (data_train self)), (truthy (data_val self)),
    (truthy (data_test self)); done.
Qed.

Lemma setup_fresh w stage cfg a b c :
  train_val_test_split cfg = (a, b, c) ->
  setup w stage (__init__ cfg) =
    match disk w !! data_dir cfg with
    | None => Raise (RuntimeError dataset_not_found)
    | Some files =>
        let pool :=
          setup_pool (data_dir cfg) (transforms (__init__ cfg)) files in
        match random_split pool [a; b; c] (manual_seed 42) with
        | Ok [train; val; test] =>
            Ok (tt, with_splits (__init__ cfg) train val test)
        | Ok _ => Raise (ValueError "wrong number of values to unpack")
        | Raise e => Raise e
        end
    end.
Proof.
  intros Hsplit. unfold setup.
  rewrite bind_get_self.
  cbn [data_train data_val data_test __init__ truthy negb andb].
  rewrite (bind_hparam _ _ _ _ (hparams_data_dir cfg)), bind_lift.
  cbn [as_path]. rewrite bind_lift. unfold CIFAR10.
  destruct (disk w !! data_dir cfg) as [files|] eqn:Hdisk; [|done].
  rewrite (bind_hparam _ _ _ _ (hparams_data_dir cfg)), bind_lift.
  cbn [as_path]. rewrite bind_lift, Hdisk.
  rewrite (bind_hparam _ _ _ _ (hparams_train_val_test_split cfg)), Hsplit.
  rewrite bind_lift. cbn [as_lengths]. rewrite bind_lift.
  unfold setup_pool. cbn [transforms __init__].
  destruct (random_split _ _ _) as [parts|e]; [|done].
  destruct parts as [|p1 [|p2 [|p3 [|p4 parts]]]]; done.
Qed.

End Setup.

(** ** The lifecycle no-ops *)

(** C10: the [num_classes] property returns the constant 2 for every
    instance, whatever its configuration and whatever dataset it
    wraps, and leaves the instance as it is. *)
Theorem num_classes_is_two (self : CIFARDataModule) :
  num_classes self = Ok (2, self).
Proof. reflexivity. Qed.

(** C9: for every instance and every stage argument, [teardown]
    returns nothing and leaves every attribute of the instance, the
    three subset handles included, unchanged. *)
Theorem teardown_noop (stage : option string) (self : CIFARDataModule) :
  teardown stage self = Ok (tt, self).
Proof. reflexivity. Qed.

(** C8: [state_dict] returns the empty record for every instance, and
    importing that record (or any other) into a fresh instance with
    [load_state_dict] changes no attribute of it. *)
Theorem state_dict_empty_load_noop (self fresh : CIFARDataModule) :
  state_dict self = Ok (∅, self)
  /\ (let* exported := state_dict in
      fun _ => load_state_dict exported fresh) self = Ok (tt, fresh)
  /\ (forall blob, load_state_dict blob fresh = Ok (tt, fresh)).
Proof. repeat split. Qed.

(** ** Splitting the pool *)

Section Splitting.
Context `{Torch}.

Lemma cut3_spec n g a b c :
  0 <= a -> 0 <= b -> 0 <= c -> a + b + c = Z.of_nat n ->
  let '(i1, i2, i3) := cut3 (randperm g n) a b c in
  Z.of_nat (length i1) = a /\ Z.of_nat (length i2) = b
  /\ Z.of_nat (length i3) = c /\ i1 ++ i2 ++ i3 = randperm g n.
Proof.
  intros Ha Hb Hc Hsum. unfold cut3.
  assert (Hlen := randperm_length g n).
  rewrite !length_take, !length_drop, Hlen.
  repeat split; try lia.
  replace (Z.to_nat (a + b)) with (Z.to_nat a + Z.to_nat b)%nat by lia.
  rewrite <- drop_drop.
  rewrite (take_ge (drop (Z.to_nat b) _))
    by (rewrite !length_drop, Hlen; lia).
  by rewrite !take_drop.
Qed.

Lemma setup_pool_samples root tf files :
  samples (setup_pool root tf files) = train_list files ++ train_list files.
Proof. cbn. by rewrite app_nil_r. Qed.

Lemma setup_pool_len root tf files :
  len (setup_pool root tf files)
  = (length (train_list files) + length (train_list files))%nat.
Proof. cbn. lia. Qed.

Lemma setup_pool_even root tf files :
  Z.of_nat (len (setup_pool root tf files)) ≠ 1.
Proof. rewrite setup_pool_len. lia. Qed.

Lemma setup_refuses w stage cfg files a b c :
  train_val_test_split cfg = (a, b, c) ->
  disk w !! data_dir cfg = Some files ->
  a + b + c ≠ 1 ->
  a + b + c
    ≠ Z.of_nat (len (setup_pool (data_dir cfg) (transforms (__init__ cfg))
                       files)) ->
  setup w stage (__init__ cfg) = Raise (ValueError size_mismatch).
Proof.
  intros Hsplit Hdisk Hone Hne.
  rewrite (setup_fresh _ _ _ _ _ _ Hsplit), Hdisk. cbv zeta.
  rewrite random_split_mismatch; [done|by rewrite sum_three..].
Qed.

(** What [setup] assigns when [random_split] cuts the permutation into
    pieces of the non-negative lengths [a'], [b'], [c']. *)
Lemma setup_assigns_cut w stage cfg files a b c a' b' c' :
  train_val_test_split cfg = (a, b, c) ->
  disk w !! data_dir cfg = Some files ->
  let pool := setup_pool (data_dir cfg) (transforms (__init__ cfg)) files in
  random_split pool [a; b; c] (manual_seed 42)
  = (let '(i1, i2, i3) :=
       cut3 (randperm (manual_seed 42) (len pool)) a' b' c' in
     Ok [Subset pool i1; Subset pool i2; Subset pool i3]) ->
  0 <= a' -> 0 <= b' -> 0 <= c' -> a' + b' + c' = Z.of_nat (len pool) ->
  exists i1 i2 i3 : list nat,
    setup w stage (__init__ cfg) =
      Ok (tt, with_splits (__init__ cfg)
                (Subset pool i1) (Subset pool i2) (Subset pool i3))
    /\ Z.of_nat (length i1) = a'
    /\ Z.of_nat (length i2) = b'
    /\ Z.of_nat (length i3) = c'
    /\ (forall i, i ∈ i1 -> i ∉ i2)
    /\ (forall i, i ∈ i1 -> i ∉ i3)
    /\ (forall i, i ∈ i2 -> i ∉ i3)
    /\ i1 ++ i2 ++ i3 ≡ₚ seq 0 (len pool).
Proof.
  intros Hsplit Hdisk pool Hcutting Ha Hb Hc Hsum.
  rewrite (setup_fresh _ _ _ _ _ _ Hsplit), Hdisk. cbv zeta. fold pool.
  rewrite Hcutting.
  pose proof (cut3_spec (len pool) (manual_seed 42) a' b' c' Ha Hb Hc Hsum)
    as Hcut.
  destruct (cut3 _ a' b' c') as [[i1 i2] i3].
  destruct Hcut as (H1 & H2 & H3 & Happ).
  exists i1, i2, i3.
  assert (Hperm : i1 ++ i2 ++ i3 ≡ₚ seq 0 (len pool))
    by (rewrite Happ; apply randperm_Permutation).
  assert (Hnd : NoDup (i1 ++ i2 ++ i3))
    by (rewrite Hperm; apply NoDup_seq).
  apply list.NoDup_app in Hnd as (_ & H12 & Hnd).
  apply list.NoDup_app in Hnd as (_ & H23 & _).
  repeat split; try done.
  - intros i Hi Hi2. apply (H12 i Hi). set_solver.
  - intros i Hi Hi3. apply (H12 i Hi). set_solver.
Qed.

Lemma setup_splits w stage cfg files a b c :
  train_val_test_split cfg = (a, b, c) ->
  disk w !! data_dir cfg = Some files ->
  let pool := setup_pool (data_dir cfg) (transforms (__init__ cfg)) files in
  a + b + c = Z.of_nat (len pool) -> 0 <= a -> 0 <= b -> 0 <= c ->
  exists i1 i2 i3 : list nat,
    setup w stage (__init__ cfg) =
      Ok (tt, with_splits (__init__ cfg)
                (Subset pool i1) (Subset pool i2) (Subset pool i3))
    /\ Z.of_nat (length i1) = a
    /\ Z.of_nat (length i2) = b
    /\ Z.of_nat (length i3) = c
    /\ (forall i, i ∈ i1 -> i ∉ i2)
    /\ (forall i, i ∈ i1 -> i ∉ i3)
    /\ (forall i, i ∈ i2 -> i ∉ i3)
    /\ i1 ++ i2 ++ i3 ≡ₚ seq 0 (len pool).
Proof.
  intros Hsplit Hdisk pool Hsum Ha Hb Hc.
  apply (setup_assigns_cut w stage cfg files a b c a b c); try done.
  apply random_split_three; try done.
  rewrite Hsum. apply setup_pool_even.
Qed.

(** Sizes that sum to 1, each 0 or 1, are fractions of the pool. *)
Lemma setup_splits_fractions w stage cfg files a b c :
  train_val_test_split cfg = (a, b, c) ->
  disk w !! data_dir cfg = Some files ->
  let pool := setup_pool (data_dir cfg) (transforms (__init__ cfg)) files in
  let n := Z.of_nat (len pool) in
  a + b + c = 1 -> 0 <= a <= 1 -> 0 <= b <= 1 -> 0 <= c <= 1 ->
  exists i1 i2 i3 : list nat,
    setup w stage (__init__ cfg) =
      Ok (tt, with_splits (__init__ cfg)
                (Subset pool i1) (Subset pool i2) (Subset pool i3))
    /\ Z.of_nat (length i1) = n * a
    /\ Z.of_nat (length i2) = n * b
    /\ Z.of_nat (length i3) = n * c
    /\ (forall i, i ∈ i1 -> i ∉ i2)
    /\ (forall i, i ∈ i1 -> i ∉ i3)
    /\ (forall i, i ∈ i2 -> i ∉ i3)
    /\ i1 ++ i2 ++ i3 ≡ₚ seq 0 (len pool).
Proof.
  intros Hsplit Hdisk pool n Hsum Ha Hb Hc.
  assert (0 <= n) by (unfold n; lia).
  apply (setup_assigns_cut w stage cfg files a b c (n * a) (n * b) (n * c));
    try done; try nia.
  - by apply random_split_fractions.
  - fold pool. fold n. nia.
Qed.

(** C3, as the code has it: on a fresh instance whose dataset files
    load into a pool of [N] samples, [setup] raises the size-mismatch
    [ValueError] whenever the three configured sizes sum neither to [N]
    nor to 1 (sizes that sum to 1 are read as fractions of the pool);
    when they sum to [N] and none is negative, it succeeds and assigns
    three subsets of the pool that have exactly the configured sizes,
    are pairwise disjoint as index sets, and together cover the
    pool. *)
Theorem setup_split_sizes (w : World) (stage : option string)
    (cfg : Config) (files : CifarFiles) (a b c : Z) :
  train_val_test_split cfg = (a, b, c) ->
  disk w !! data_dir cfg = Some files ->
  let pool := setup_pool (data_dir cfg) (transforms (__init__ cfg)) files in
  (a + b + c ≠ Z.of_nat (len pool) -> a + b + c ≠ 1 ->
     setup w stage (__init__ cfg) = Raise (ValueError size_mismatch))
  /\ (a + b + c = Z.of_nat (len pool) -> 0 <= a -> 0 <= b -> 0 <= c ->
      exists i1 i2 i3 : list nat,
        setup w stage (__init__ cfg) =
          Ok (tt, with_splits (__init__ cfg)
                    (Subset pool i1) (Subset pool i2) (Subset pool i3))
        /\ Z.of_nat (length i1) = a
        /\ Z.of_nat (length i2) = b
        /\ Z.of_nat (length i3) = c
        /\ (forall i, i ∈ i1 -> i ∉ i2)
        /\ (forall i, i ∈ i1 -> i ∉ i3)
        /\ (forall i, i ∈ i2 -> i ∉ i3)
        /\ i1 ++ i2 ++ i3 ≡ₚ seq 0 (len pool)).
Proof.
  intros Hsplit Hdisk pool. split.
  - intros Hne Hone. by apply (setup_refuses w stage cfg files a b c).
  - by apply setup_splits.
Qed.

End Splitting.

(** ** Repeating and reproducing the split *)

Section Reproducible.
Context `{Torch}.

(** Behind its guard, [setup] reads only the hyper-parameters and the
    transform of the instance. *)
Lemma setup_unmaterialized_ext w stage stage' self self' :
  unmaterialized self = true -> unmaterialized self' = true ->
  hparams self = hparams self' -> transforms self = transforms self' ->
  setup w stage self = setup w stage' self'.
Proof.
  destruct self as [h t d1 d2 d3], self' as [h' t' e1 e2 e3].
  unfold unmaterialized. cbn [hparams transforms data_train data_val data_test].
  intros Hg Hg' <- <-. unfold setup. rewrite !bind_get_self.
  cbn [hparams transforms data_train data_val data_test].
  rewrite Hg, Hg'.
  step_hparam h "data_dir". step_lift (as_path v).
  step_lift (CIFAR10 w a true (Some t)).
  rewrite !(bind_hparam "data_dir" v) by done.
  step_lift (as_path v). step_lift (CIFAR10 w a1 true (Some t)).
  step_hparam h "train_val_test_split". step_lift (as_lengths v0).
  rewrite !bind_lift.
  destruct (random_split _ a3 _) as [parts|]; [|done].
  by destruct parts as [|p1 [|p2 [|p3 [|p4 parts]]]].
Qed.

Lemma setup_result w stage self self' :
  setup w stage self = Ok (tt, self') ->
  hparams self' = hparams self /\ transforms self' = transforms self.
Proof.
  destruct self as [h t d1 d2 d3].
  unfold setup. rewrite bind_get_self.
  cbn [hparams transforms data_train data_val data_test].
  destruct (_ && _); [|by intros [= <-]].
  step_hparam h "data_dir". step_lift (as_path v).
  step_lift (CIFAR10 w a true (Some t)).
  rewrite !(bind_hparam "data_dir" v) by done.
  step_lift (as_path v). step_lift (CIFAR10 w a1 true (Some t)).
  step_hparam h "train_val_test_split". step_lift (as_lengths v0).
  rewrite !bind_lift.
  destruct (random_split _ a3 _) as [parts|]; [|done].
  destruct parts as [|p1 [|p2 [|p3 [|p4 parts]]]]; try done.
  by intros [= <-].
Qed.

(** C4: once an invocation of [setup] has returned, a second
    invocation (with any stage argument) returns the instance exactly
    as the first one left it: the three subset handles, and every other
    attribute, are identical to the first invocation's result. *)
Theorem setup_idempotent (w : World) (stage stage' : option string)
    (self self' : CIFARDataModule) :
  setup w stage self = Ok (tt, self') ->
  setup w stage' self' = Ok (tt, self').
Proof.
  intros Hfirst.
  destruct (unmaterialized self') eqn:Hg'.
  - destruct (unmaterialized self) eqn:Hg.
    + destruct (setup_result _ _ _ _ Hfirst) as [Hh Ht].
      by rewrite <- (setup_unmaterialized_ext w stage stage' self self').
    + apply setup_materialized. revert Hg'. unfold unmaterialized.
      revert Hg. unfold unmaterialized.
      intros Hg. rewrite setup_materialized in Hfirst.
      * injection Hfirst as <-. by rewrite Hg.
      * destruct (truthy (data_train self)), (truthy (data_val self)),
          (truthy (data_test self)); done.
  - apply setup_materialized. revert Hg'. unfold unmaterialized.
    destruct (truthy (data_train self')), (truthy (data_val self')),
      (truthy (data_test self')); done.
Qed.

End Reproducible.

Section Determinism.
Context `{Torch}.





End Determinism.

(** ** The pool that is split *)

(** C1, evaluated: with three train and two test samples on disk and
    sizes (3, 2, 1), [setup] splits a pool of six samples that is the
    train partition followed by the train partition again; it is not
    the train partition followed by the test partition, and sizes that
    sum to the five stored samples are refused. *)
Theorem setup_pool_repeats_train_partition :
  let cfg := with_sizes 3 2 1 in
  let pool := setup_pool "data/" (transforms (__init__ cfg)) tiny_files in
  @setup reversing_torch (world_with tiny_files) None (__init__ cfg)
  = Ok (tt, with_splits (__init__ cfg)
              (Subset pool [5; 4; 3]%nat) (Subset pool [2; 1]%nat)
              (Subset pool [0]%nat))
  /\ samples pool = train_list tiny_files ++ train_list tiny_files
  /\ samples pool ≠ train_then_test tiny_files
  /\ @setup reversing_torch (world_with tiny_files) None
       (__init__ (with_sizes 3 1 1))
     = Raise (ValueError size_mismatch).
Proof.
  repeat split; try (vm_compute; reflexivity).
  vm_compute. discriminate.
Qed.

(** ** The default sizes *)

Section Defaults.
Context `{Torch}.

(** C2, as the code has it: against a pool of 60000 samples [setup]
    with the default sizes (55000, 5000, 10000) raises the
    size-mismatch error, as they sum to 70000; the default sizes
    succeed against a pool of 70000 samples; and the sizes
    (50000, 5000, 10000) are refused by the 60000-sample pool too. *)
Theorem split_sizes_against_pool (w : World) (stage : option string)
    (cfg : Config) (files : CifarFiles) :
  disk w !! data_dir cfg = Some files ->
  let pool := setup_pool (data_dir cfg) (transforms (__init__ cfg)) files in
  (train_val_test_split cfg = (55000, 5000, 10000) ->
   Z.of_nat (len pool) = 60000 ->
   setup w stage (__init__ cfg) = Raise (ValueError size_mismatch))
  /\ (train_val_test_split cfg = (55000, 5000, 10000) ->
      Z.of_nat (len pool) = 70000 ->
      exists self', setup w stage (__init__ cfg) = Ok (tt, self'))
  /\ (train_val_test_split cfg = (50000, 5000, 10000) ->
      Z.of_nat (len pool) = 60000 ->
      setup w stage (__init__ cfg) = Raise (ValueError size_mismatch)).
Proof.
  intros Hdisk pool. repeat split; intros Hsplit Hlen.
  - apply (setup_refuses w stage cfg files _ _ _ Hsplit Hdisk); [lia|].
    fold pool. lia.
  - destruct (setup_splits w stage cfg files _ _ _ Hsplit Hdisk)
      as (i1 & i2 & i3 & Hrun & _); [fold pool; lia|lia..|].
    eauto.
  - apply (setup_refuses w stage cfg files _ _ _ Hsplit Hdisk); [lia|].
    fold pool. lia.
Qed.

End Defaults.

(** ** The batch sources *)

(** What the three methods return when every attribute they read is
    present: the handle and the three settings are passed through, and
    only the train loader shuffles. *)
Lemma dataloaders_thread_arguments self bs nw pm :
  hparams self !! "batch_size" = Some bs ->
  hparams self !! "num_workers" = Some nw ->
  hparams self !! "pin_memory" = Some pm ->
  train_dataloader self
  = Ok ({| dl_dataset := data_train self; dl_batch_size := bs;
           dl_num_workers := nw; dl_pin_memory := pm;
           dl_shuffle := true |}, self)
  /\ val_dataloader self
     = Ok ({| dl_dataset := data_val self; dl_batch_size := bs;
              dl_num_workers := nw; dl_pin_memory := pm;
              dl_shuffle := false |}, self)
  /\ test_dataloader self
     = Ok ({| dl_dataset := data_test self; dl_batch_size := bs;
              dl_num_workers := nw; dl_pin_memory := pm;
              dl_shuffle := false |}, self).
Proof.
  intros Hbs Hnw Hpm.
  unfold train_dataloader, val_dataloader, test_dataloader.
  rewrite !bind_get_self, !(bind_hparam _ _ _ _ Hbs),
    !(bind_hparam _ _ _ _ Hnw), !(bind_hparam _ _ _ _ Hpm).
  done.
Qed.

(** C7, as the code has it: on every instance whose hyper-parameters
    are those saved by [__init__] (before or after [setup]), each of
    the three batch sources raises [AttributeError] when it reads
    [self.hparams.num_workers]: the worker count was saved as
    [num_worker]. *)
Theorem dataloaders_raise_AttributeError (cfg : Config)
    (self : CIFARDataModule) :
  hparams self = hparams (__init__ cfg) ->
  train_dataloader self = Raise (AttributeError "num_workers")
  /\ val_dataloader self = Raise (AttributeError "num_workers")
  /\ test_dataloader self = Raise (AttributeError "num_workers").
Proof.
  intros Hh.
  pose proof (hparams_batch_size cfg) as Hbs.
  pose proof (hparams_num_workers cfg) as Hnw.
  rewrite <- Hh in Hbs, Hnw.
  unfold train_dataloader, val_dataloader, test_dataloader.
  rewrite !bind_get_self, !(bind_hparam _ _ _ _ Hbs).
  by rewrite !bind_hparam_missing.
Qed.

(** C6, evaluated: after a successful [setup], none of the three batch
    sources returns a loader, shuffling or not: each raises
    [AttributeError] on [num_workers]. *)
Theorem dataloaders_after_setup_raise :
  exists self,
    @setup reversing_torch (world_with tiny_files) None
      (__init__ (with_sizes 3 2 1)) = Ok (tt, self)
    /\ truthy (data_train self) = true
    /\ train_dataloader self = Raise (AttributeError "num_workers")
    /\ val_dataloader self = Raise (AttributeError "num_workers")
    /\ test_dataloader self = Raise (AttributeError "num_workers").
Proof.
  eexists. split; [vm_compute; reflexivity|].
  repeat split; vm_compute; reflexivity.
Qed.

(** ** The theorems at concrete inputs *)

Lemma world_with_disk files :
  disk (world_with files) !! "data/" = Some files.
Proof. apply lookup_singleton_eq. Qed.

(** A 60000-sample pool refuses the default sizes. *)
Lemma default_sizes_refused_by_60000_pool :
  let files := files_of_sizes (Z.to_nat 30000) (Z.to_nat 10000) in
  Z.of_nat (len (setup_pool "data/" (transforms (__init__ default_config))
                   files)) = 60000
  /\ train_val_test_split default_config = (55000, 5000, 10000)
  /\ @setup reversing_torch (world_with files) None (__init__ default_config)
     = Raise (ValueError size_mismatch).
Proof. repeat split; vm_compute; reflexivity. Qed.

Lemma split_sizes_against_pool_witness :
  let files6 := files_of_sizes (Z.to_nat 30000) (Z.to_nat 10000) in
  let files7 := files_of_sizes (Z.to_nat 35000) (Z.to_nat 10000) in
  @setup reversing_torch (world_with files6) None (__init__ default_config)
  = Raise (ValueError size_mismatch)
  /\ (exists self',
        @setup reversing_torch (world_with files7) None
          (__init__ default_config) = Ok (tt, self'))
  /\ @setup reversing_torch (world_with files6) None
       (__init__ (with_sizes 50000 5000 10000))
     = Raise (ValueError size_mismatch).
Proof.
  intros files6 files7.
  pose proof (world_with_disk files6) as Hdisk6.
  pose proof (world_with_disk files7) as Hdisk7.
  destruct (@split_sizes_against_pool reversing_torch (world_with files6)
              None default_config files6 Hdisk6) as (Hrefused & _ & _).
  destruct (@split_sizes_against_pool reversing_torch (world_with files7)
              None default_config files7 Hdisk7) as (_ & Haccepted & _).
  destruct (@split_sizes_against_pool reversing_torch (world_with files6)
              None (with_sizes 50000 5000 10000) files6 Hdisk6)
    as (_ & _ & Hrefused').
  split; [|split].
  - apply Hrefused; vm_compute; reflexivity.
  - apply Haccepted; vm_compute; reflexivity.
  - apply Hrefused'; vm_compute; reflexivity.
Defined.

(** Against the six-sample pool, the sizes (1, 0, 0) do not sum to 6
    and yet [setup] succeeds, the whole pool going to the train
    subset; the sizes (8, -3, 1) sum to 6 and [setup] succeeds, but
    the subsets have 6, 0 and 1 indices and two of them share index
    0. *)
Lemma split_sizes_as_fractions_or_negative :
  let pool :=
    setup_pool "data/" (transforms (__init__ default_config)) tiny_files in
  (1 + 0 + 0 ≠ Z.of_nat (len pool)
   /\ @setup reversing_torch (world_with tiny_files) None
        (__init__ (with_sizes 1 0 0))
      = Ok (tt, with_splits (__init__ (with_sizes 1 0 0))
                  (Subset pool [5; 4; 3; 2; 1; 0]%nat) (Subset pool [])
                  (Subset pool [])))
  /\ (8 + -3 + 1 = Z.of_nat (len pool)
      /\ @setup reversing_torch (world_with tiny_files) None
           (__init__ (with_sizes 8 (-3) 1))
         = Ok (tt, with_splits (__init__ (with_sizes 8 (-3) 1))
                     (Subset pool [5; 4; 3; 2; 1; 0]%nat) (Subset pool [])
                     (Subset pool [0]%nat))).
Proof.
  repeat split; try (vm_compute; reflexivity).
  vm_compute. discriminate.
Qed.

Lemma setup_split_sizes_witness :
  let pool :=
    setup_pool "data/" (transforms (__init__ (with_sizes 3 2 1))) tiny_files in
  @setup reversing_torch (world_with tiny_files) None
    (__init__ (with_sizes 1 1 1)) = Raise (ValueError size_mismatch)
  /\ exists i1 i2 i3 : list nat,
       @setup reversing_torch (world_with tiny_files) None
         (__init__ (with_sizes 3 2 1))
       = Ok (tt, with_splits (__init__ (with_sizes 3 2 1))
                   (Subset pool i1) (Subset pool i2) (Subset pool i3))
       /\ Z.of_nat (length i1) = 3
       /\ Z.of_nat (length i2) = 2
       /\ Z.of_nat (length i3) = 1
       /\ (forall i, i ∈ i1 -> i ∉ i2)
       /\ (forall i, i ∈ i1 -> i ∉ i3)
       /\ (forall i, i ∈ i2 -> i ∉ i3)
       /\ i1 ++ i2 ++ i3 ≡ₚ seq 0 (len pool).
Proof.
  intros pool.
  pose proof (world_with_disk tiny_files) as Hdisk.
  destruct (@setup_split_sizes reversing_torch (world_with tiny_files) None
              (with_sizes 1 1 1) tiny_files 1 1 1 eq_refl Hdisk)
    as [Hrefused _].
  destruct (@setup_split_sizes reversing_torch (world_with tiny_files) None
              (with_sizes 3 2 1) tiny_files 3 2 1 eq_refl Hdisk)
    as [_ Haccepted].
  split.
  - apply Hrefused; vm_compute; discriminate.
  - apply Haccepted; [reflexivity | lia..].
Defined.

Lemma setup_idempotent_witness :
  let cfg := with_sizes 3 2 1 in
  let pool := setup_pool "data/" (transforms (__init__ cfg)) tiny_files in
  let self' :=
    with_splits (__init__ cfg) (Subset pool [5; 4; 3]%nat)
      (Subset pool [2; 1]%nat) (Subset pool [0]%nat) in
  @setup reversing_torch (world_with tiny_files) None (__init__ cfg)
  = Ok (tt, self')
  /\ @setup reversing_torch (world_with tiny_files) (Some "fit") self'
     = Ok (tt, self').
Proof.
  intros cfg pool self'.
  assert (Hfirst : @setup reversing_torch (world_with tiny_files) None
                     (__init__ cfg) = Ok (tt, self'))
    by (vm_compute; reflexivity).
  split; [exact Hfirst|].
  exact (@setup_idempotent reversing_torch (world_with tiny_files) None
           (Some "fit") (__init__ cfg) self' Hfirst).
Defined.



Lemma dataloaders_raise_AttributeError_witness :
  let cfg := with_sizes 3 2 1 in
  let pool := setup_pool "data/" (transforms (__init__ cfg)) tiny_files in
  let self :=
    with_splits (__init__ cfg) (Subset pool [5; 4; 3]%nat)
      (Subset pool [2; 1]%nat) (Subset pool [0]%nat) in
  hparams self = hparams (__init__ cfg)
  /\ train_dataloader self = Raise (AttributeError "num_workers")
  /\ val_dataloader self = Raise (AttributeError "num_workers")
  /\ test_dataloader self = Raise (AttributeError "num_workers").
Proof.
  intros cfg pool self.
  split; [reflexivity|].
  exact (dataloaders_raise_AttributeError cfg self eq_refl).
Defined.

(** * Further properties of the module *)

(** ** When setup succeeds *)

Section SetupOutcome.
Context `{Torch}.

Lemma setup_accepts w stage cfg files a b c :
  train_val_test_split cfg = (a, b, c) ->
  disk w !! data_dir cfg = Some files ->
  a + b + c
    = Z.of_nat (len (setup_pool (data_dir cfg) (transforms (__init__ cfg))
                       files)) ->
  exists self', setup w stage (__init__ cfg) = Ok (tt, self').
Proof.
  intros Hsplit Hdisk Hsum.
  rewrite (setup_fresh _ _ _ _ _ _ Hsplit), Hdisk. cbv zeta.
  rewrite random_split_absolute
    by (rewrite sum_three, Hsum; apply setup_pool_even).
  destruct (split_lengths_three_parts _ a b c (manual_seed 42) Hsum)
    as (p1 & p2 & p3 & ->).
  eauto.
Qed.

Lemma setup_absent w stage cfg :
  disk w !! data_dir cfg = None ->
  setup w stage (__init__ cfg) = Raise (RuntimeError dataset_not_found).
Proof.
  intros Hdisk. destruct (train_val_test_split cfg) as [[a b] c] eqn:Hsplit.
  by rewrite (setup_fresh _ _ _ _ _ _ Hsplit), Hdisk.
Qed.

Lemma setup_fraction_out_of_range w stage cfg files a b c :
  train_val_test_split cfg = (a, b, c) ->
  disk w !! data_dir cfg = Some files ->
  a + b + c = 1 ->
  ¬ (0 <= a <= 1 /\ 0 <= b <= 1 /\ 0 <= c <= 1) ->
  exists i, setup w stage (__init__ cfg)
            = Raise (ValueError (fraction_out_of_range i)).
Proof.
  intros Hsplit Hdisk Hsum Hout.
  rewrite (setup_fresh _ _ _ _ _ _ Hsplit), Hdisk. cbv zeta.
  rewrite random_split_resolved.
  destruct (resolve_fractions_out_of_range
              (Z.of_nat (len (setup_pool (data_dir cfg)
                                (transforms (__init__ cfg)) files)))
              a b c Hsum Hout) as [i ->].
  eauto.
Qed.

(** The outcomes of [setup] on a fresh instance that finds its files. *)
Lemma setup_outcomes w stage cfg files :
  disk w !! data_dir cfg = Some files ->
  (exists self', setup w stage (__init__ cfg) = Ok (tt, self'))
  \/ setup w stage (__init__ cfg) = Raise (ValueError size_mismatch)
  \/ (exists i, setup w stage (__init__ cfg)
                = Raise (ValueError (fraction_out_of_range i))).
Proof.
  intros Hdisk.
  destruct (train_val_test_split cfg) as [[a b] c] eqn:Hsplit.
  destruct (decide (a + b + c = 1)) as [Hone|Hone].
  - destruct (decide (0 <= a <= 1 /\ 0 <= b <= 1 /\ 0 <= c <= 1))
      as [(Ha & Hb & Hc)|Hout].
    + left.
      destruct (setup_splits_fractions w stage cfg files a b c Hsplit Hdisk
                  Hone Ha Hb Hc) as (i1 & i2 & i3 & Hrun & _).
      eauto.
    + right. right.
      by apply (setup_fraction_out_of_range w stage cfg files a b c).
  - destruct (decide (a + b + c
                      = Z.of_nat (len (setup_pool (data_dir cfg)
                                         (transforms (__init__ cfg)) files))))
      as [Hsum|Hne].
    + left. by apply (setup_accepts w stage cfg files a b c).
    + right. left. by apply (setup_refuses w stage cfg files a b c).
Qed.

(** X2: on a fresh instance, [setup] raises the dataset-not-found
    [RuntimeError] when no files are stored under the configured
    directory, whatever the configured sizes are. *)
Theorem setup_missing_files (w : World) (stage : option string)
    (cfg : Config) :
  disk w !! data_dir cfg = None ->
  setup w stage (__init__ cfg) = Raise (RuntimeError dataset_not_found).
Proof. apply setup_absent. Qed.

(** X3: on a fresh instance, [setup] succeeds exactly when files are
    stored under the configured directory and either the three
    configured sizes sum to twice the number of stored training
    samples, or they sum to 1 and each of them is 0 or 1 (they are
    then fractions of the pool). *)
Theorem setup_succeeds_iff (w : World) (stage : option string)
    (cfg : Config) (a b c : Z) :
  train_val_test_split cfg = (a, b, c) ->
  (exists self', setup w stage (__init__ cfg) = Ok (tt, self'))
  <-> (exists files,
         disk w !! data_dir cfg = Some files
         /\ (a + b + c = 2 * Z.of_nat (length (train_list files))
             \/ (a + b + c = 1
                 /\ 0 <= a <= 1 /\ 0 <= b <= 1 /\ 0 <= c <= 1))).
Proof.
  intros Hsplit. split.
  - intros [self' Hrun].
    destruct (disk w !! data_dir cfg) as [files|] eqn:Hdisk;
      [|by rewrite (setup_absent _ _ _ Hdisk) in Hrun].
    exists files. split; [done|].
    destruct (decide (a + b + c = 1)) as [Hone|Hone].
    + right. split; [done|].
      destruct (decide (0 <= a <= 1 /\ 0 <= b <= 1 /\ 0 <= c <= 1))
        as [|Hout]; [done|].
      destruct (setup_fraction_out_of_range w stage cfg files a b c
                  Hsplit Hdisk Hone Hout) as [i Hraise].
      by rewrite Hraise in Hrun.
    + left.
      destruct (decide (a + b + c
                        = 2 * Z.of_nat (length (train_list files))))
        as [|Hne]; [done|].
      rewrite (setup_refuses w stage cfg files a b c Hsplit Hdisk Hone)
        in Hrun; [done|].
      rewrite setup_pool_len. lia.
  - intros (files & Hdisk & [Hsum|(Hone & Ha & Hb & Hc)]).
    + apply (setup_accepts w stage cfg files a b c Hsplit Hdisk).
      rewrite setup_pool_len. lia.
    + destruct (setup_splits_fractions w stage cfg files a b c Hsplit Hdisk
                  Hone Ha Hb Hc) as (i1 & i2 & i3 & Hrun & _).
      eauto.
Qed.

(** X5: with CIFAR-10's 50000 training samples stored under the
    default directory, [setup] on an instance constructed with the
    default arguments raises the size-mismatch error. *)
Theorem default_config_refused_by_cifar10 (w : World)
    (stage : option string) (files : CifarFiles) :
  disk w !! "data/" = Some files ->
  Z.of_nat (length (train_list files)) = 50000 ->
  setup w stage (__init__ default_config) = Raise (ValueError size_mismatch).
Proof.
  intros Hdisk Hlen.
  apply (setup_refuses w stage default_config files 55000 5000 10000);
    [done..|lia|].
  rewrite setup_pool_len. lia.
Qed.

(** X6: whenever [setup] returns, on any instance, the instance keeps
    the hyper-parameters and the transform it had. *)
Theorem setup_keeps_configuration (w : World) (stage : option string)
    (self self' : CIFARDataModule) :
  setup w stage self = Ok (tt, self') ->
  hparams self' = hparams self /\ transforms self' = transforms self.
Proof. apply setup_result. Qed.

(** X16: sizes that sum to 1 are fractions of the pool.  When each
    of them is 0 or 1, [setup] on a fresh instance succeeds whatever
    the pool's size [N] is, and the three subsets hold [N] times the
    configured size each, are pairwise disjoint as index sets and
    cover the pool; when one of them is negative or exceeds 1, [setup]
    raises the fraction-out-of-range [ValueError]. *)
Theorem setup_sizes_as_fractions (w : World) (stage : option string)
    (cfg : Config) (files : CifarFiles) (a b c : Z) :
  train_val_test_split cfg = (a, b, c) ->
  disk w !! data_dir cfg = Some files ->
  a + b + c = 1 ->
  let pool := setup_pool (data_dir cfg) (transforms (__init__ cfg)) files in
  let n := Z.of_nat (len pool) in
  (0 <= a <= 1 /\ 0 <= b <= 1 /\ 0 <= c <= 1 ->
   exists i1 i2 i3 : list nat,
     setup w stage (__init__ cfg) =
       Ok (tt, with_splits (__init__ cfg)
                 (Subset pool i1) (Subset pool i2) (Subset pool i3))
     /\ Z.of_nat (length i1) = n * a
     /\ Z.of_nat (length i2) = n * b
     /\ Z.of_nat (length i3) = n * c
     /\ (forall i, i ∈ i1 -> i ∉ i2)
     /\ (forall i, i ∈ i1 -> i ∉ i3)
     /\ (forall i, i ∈ i2 -> i ∉ i3)
     /\ i1 ++ i2 ++ i3 ≡ₚ seq 0 (len pool))
  /\ (¬ (0 <= a <= 1 /\ 0 <= b <= 1 /\ 0 <= c <= 1) ->
      exists i, setup w stage (__init__ cfg)
                = Raise (ValueError (fraction_out_of_range i))).
Proof.
  intros Hsplit Hdisk Hone pool n. split.
  - intros (Ha & Hb & Hc). by apply setup_splits_fractions.
  - intros Hout.
    by apply (setup_fraction_out_of_range w stage cfg files a b c).
Qed.

End SetupOutcome.

(** ** What the three subsets hold *)

Lemma omap_lookup_seq {A} (l1 l2 : list A) :
  omap (fun i => (l1 ++ l2) !! i) (seq (length l1) (length l2)) = l2.
Proof.
  revert l1. induction l2 as [|x l2 IH]; intros l1; [done|].
  cbn [length seq omap list_omap].
  rewrite list_lookup_middle by done. f_equal.
  specialize (IH (l1 ++ [x])).
  rewrite length_app, <- app_assoc in IH. cbn [length app] in IH.
  by rewrite Nat.add_1_r in IH.
Qed.

Lemma omap_lookup_all {A} (l : list A) :
  omap (fun i => l !! i) (seq 0 (length l)) = l.
Proof. apply (omap_lookup_seq [] l). Qed.

Section SubsetContents.
Context `{Torch}.

(** A successful run on a fresh instance with non-negative sizes,
    spelled out: the three index lists are a rearrangement of the
    pool's index range. *)
Lemma setup_fresh_success w stage cfg files a b c self' :
  train_val_test_split cfg = (a, b, c) ->
  0 <= a -> 0 <= b -> 0 <= c ->
  disk w !! data_dir cfg = Some files ->
  setup w stage (__init__ cfg) = Ok (tt, self') ->
  let pool := setup_pool (data_dir cfg) (transforms (__init__ cfg)) files in
  exists i1 i2 i3 : list nat,
    self' = with_splits (__init__ cfg)
              (Subset pool i1) (Subset pool i2) (Subset pool i3)
    /\ i1 ++ i2 ++ i3 ≡ₚ seq 0 (len pool).
Proof.
  intros Hsplit Ha Hb Hc Hdisk Hrun pool.
  destruct (decide (a + b + c = 1)) as [Hone|Hone].
  - destruct (setup_splits_fractions w stage cfg files a b c Hsplit Hdisk
                Hone) as (i1 & i2 & i3 & Hrun' & _ & _ & _ & _ & _ & _ & Hperm);
      [lia..|].
    exists i1, i2, i3. rewrite Hrun' in Hrun. by injection Hrun as <-.
  - destruct (decide (a + b + c = Z.of_nat (len pool))) as [Hsum|Hne].
    + destruct (setup_splits w stage cfg files a b c Hsplit Hdisk Hsum
                  Ha Hb Hc)
        as (i1 & i2 & i3 & Hrun' & _ & _ & _ & _ & _ & _ & Hperm).
      exists i1, i2, i3. rewrite Hrun' in Hrun. by injection Hrun as <-.
    + by rewrite (setup_refuses w stage cfg files a b c Hsplit Hdisk Hone Hne)
        in Hrun.
Qed.

(** X7: after a successful [setup] with non-negative sizes, the three
    subsets together hold every stored training sample exactly twice
    and nothing else: their samples, put together, are a rearrangement
    of the training samples followed by the training samples. *)
Theorem setup_subsets_hold_train_twice (w : World) (stage : option string)
    (cfg : Config) (files : CifarFiles) (a b c : Z)
    (self' : CIFARDataModule) :
  train_val_test_split cfg = (a, b, c) ->
  0 <= a -> 0 <= b -> 0 <= c ->
  disk w !! data_dir cfg = Some files ->
  setup w stage (__init__ cfg) = Ok (tt, self') ->
  exists train val test,
    data_train self' = Some train
    /\ data_val self' = Some val
    /\ data_test self' = Some test
    /\ samples train ++ samples val ++ samples test
       ≡ₚ train_list files ++ train_list files.
Proof.
  intros Hsplit Ha Hb Hc Hdisk Hrun.
  destruct (setup_fresh_success _ _ _ _ _ _ _ _ Hsplit Ha Hb Hc Hdisk Hrun)
    as (i1 & i2 & i3 & -> & Hperm).
  eexists _, _, _. repeat split.
  cbn [samples]. rewrite setup_pool_samples, <- !omap_app, Hperm.
  rewrite setup_pool_len, <- length_app.
  by rewrite omap_lookup_all.
Qed.

(** X8: after a successful [setup] with non-negative sizes on files
    whose training partition is not empty, a later [setup] returns the
    instance unchanged in every world and for every stage: it does not
    go back to the files, so it succeeds even when they are gone. *)
Theorem setup_materialized_any_world (w : World) (stage : option string)
    (cfg : Config) (files : CifarFiles) (a b c : Z)
    (self' : CIFARDataModule) :
  train_val_test_split cfg = (a, b, c) ->
  0 <= a -> 0 <= b -> 0 <= c ->
  disk w !! data_dir cfg = Some files ->
  train_list files ≠ [] ->
  setup w stage (__init__ cfg) = Ok (tt, self') ->
  forall (w' : World) (stage' : option string),
    setup w' stage' self' = Ok (tt, self').
Proof.
  intros Hsplit Ha Hb Hc Hdisk Hnonempty Hrun w' stage'.
  destruct (setup_fresh_success _ _ _ _ _ _ _ _ Hsplit Ha Hb Hc Hdisk Hrun)
    as (i1 & i2 & i3 & -> & Hperm).
  apply setup_materialized.
  cbn [with_splits data_train data_val data_test truthy len].
  apply Permutation_length in Hperm.
  rewrite !length_app, length_seq, setup_pool_len in Hperm.
  destruct (train_list files) as [|x l]; [done|].
  destruct i1, i2, i3; cbn in *; done || lia.
Qed.

End SubsetContents.

(** ** prepare_data *)

Lemma download_present remote w root files :
  disk w !! root = Some files -> download remote w root = Done w.
Proof. intros Hdisk. unfold download. by rewrite Hdisk. Qed.

Lemma download_stores remote w root w' :
  download remote w root = Done w' -> is_Some (disk w' !! root).
Proof.
  unfold download. destruct (disk w !! root) as [files|] eqn:Hdisk.
  - intros [= <-]. by rewrite Hdisk.
  - destruct remote as [| |files]; intros [= <-]. cbn.
    rewrite lookup_insert_eq. eauto.
Qed.

(** On a constructed instance, [prepare_data] leaves behind the world
    its first download leaves behind: the second constructor call finds
    the files in place. *)
Lemma prepare_data_download remote w cfg :
  prepare_data remote w (__init__ cfg) = download remote w (data_dir cfg).
Proof.
  unfold prepare_data, hparam. rewrite hparams_data_dir.
  cbn [of_result and_then fst as_path]. unfold CIFAR10_download.
  destruct (download remote w (data_dir cfg)) as [w1|e] eqn:Hdl; [|done].
  cbn [and_then]. unfold CIFAR10.
  destruct (download_stores _ _ _ _ Hdl) as [files Hfiles].
  rewrite Hfiles. cbn [of_result and_then snd].
  rewrite (download_present _ _ _ _ Hfiles). cbn [and_then].
  by rewrite Hfiles.
Qed.

(** X9: when the files are already stored under the configured
    directory, [prepare_data] succeeds and leaves the world as it is,
    whatever the state of the distribution site: nothing is fetched. *)
Theorem prepare_data_present (remote : Remote) (w : World) (cfg : Config)
    (files : CifarFiles) :
  disk w !! data_dir cfg = Some files ->
  prepare_data remote w (__init__ cfg) = Done w.
Proof.
  intros Hdisk. rewrite prepare_data_download.
  by apply download_present with files.
Qed.

(** X10: when nothing is stored under the configured directory and
    the site serves the archive, [prepare_data] stores exactly the
    served files there and leaves every other directory as it was. *)
Theorem prepare_data_fetches (w : World) (cfg : Config)
    (files : CifarFiles) :
  disk w !! data_dir cfg = None ->
  exists w',
    prepare_data (Serves files) w (__init__ cfg) = Done w'
    /\ disk w' !! data_dir cfg = Some files
    /\ (forall root, root ≠ data_dir cfg -> disk w' !! root = disk w !! root).
Proof.
  intros Hdisk. rewrite prepare_data_download. unfold download.
  rewrite Hdisk. eexists. split; [done|]. cbn. split.
  - apply lookup_insert_eq.
  - intros root Hne. by rewrite lookup_insert_ne.
Qed.

(** X11: when nothing is stored under the configured directory,
    [prepare_data] propagates the failure of the download: [URLError]
    if the site cannot be reached, the corrupted-file [RuntimeError] if
    the archive fails its checksum. *)
Theorem prepare_data_fails (w : World) (cfg : Config) :
  disk w !! data_dir cfg = None ->
  prepare_data Unreachable w (__init__ cfg)
  = Failed (URLError "urlopen error")
  /\ prepare_data Corrupted w (__init__ cfg)
     = Failed (PyException (RuntimeError archive_corrupted)).
Proof.
  intros Hdisk. rewrite !prepare_data_download. unfold download.
  by rewrite Hdisk.
Qed.

(** X12: once [prepare_data] has succeeded, running it again succeeds
    and changes nothing, also when the site has become unreachable or
    serves something else. *)
Theorem prepare_data_idempotent (remote remote' : Remote) (w w' : World)
    (cfg : Config) :
  prepare_data remote w (__init__ cfg) = Done w' ->
  prepare_data remote' w' (__init__ cfg) = Done w'.
Proof.
  rewrite !prepare_data_download. intros Hdl.
  destruct (download_stores _ _ _ _ Hdl) as [files Hfiles].
  by apply download_present with files.
Qed.

Section PrepareThenSetup.
Context `{Torch}.

(** X14: after a successful [prepare_data], [setup] on the same
    configuration finds the files: it succeeds, or raises the
    size-mismatch error, or raises the fraction-out-of-range error;
    it never raises the dataset-not-found error. *)
Theorem prepare_data_then_setup (remote : Remote) (w w' : World)
    (stage : option string) (cfg : Config) :
  prepare_data remote w (__init__ cfg) = Done w' ->
  ((exists self', setup w' stage (__init__ cfg) = Ok (tt, self'))
   \/ setup w' stage (__init__ cfg) = Raise (ValueError size_mismatch)
   \/ (exists i, setup w' stage (__init__ cfg)
                 = Raise (ValueError (fraction_out_of_range i))))
  /\ setup w' stage (__init__ cfg) ≠ Raise (RuntimeError dataset_not_found).
Proof.
  rewrite prepare_data_download. intros Hdl.
  destruct (download_stores _ _ _ _ Hdl) as [files Hfiles].
  pose proof (setup_outcomes w' stage cfg files Hfiles) as Hout.
  split; [done|].
  destruct Hout as [[self' ->]|[->|[i ->]]]; done.
Qed.

End PrepareThenSetup.

(** ** The further properties at concrete inputs *)

Lemma tiny_setup_run stage :
  @setup reversing_torch (world_with tiny_files) stage
    (__init__ (with_sizes 3 2 1)) = Ok (tt, tiny_materialized).
Proof. destruct stage; vm_compute; reflexivity. Qed.

Lemma setup_missing_files_witness :
  disk empty_world !! data_dir default_config = None
  /\ @setup reversing_torch empty_world None (__init__ default_config)
     = Raise (RuntimeError dataset_not_found).
Proof.
  split; [reflexivity|].
  apply (@setup_missing_files reversing_torch). reflexivity.
Defined.

Lemma setup_succeeds_iff_witness :
  train_val_test_split (with_sizes 3 2 1) = (3, 2, 1)
  /\ ((exists self',
         @setup reversing_torch (world_with tiny_files) None
           (__init__ (with_sizes 3 2 1)) = Ok (tt, self'))
      <-> (exists files,
             disk (world_with tiny_files) !! "data/" = Some files
             /\ (3 + 2 + 1 = 2 * Z.of_nat (length (train_list files))
                 \/ (3 + 2 + 1 = 1
                     /\ 0 <= 3 <= 1 /\ 0 <= 2 <= 1 /\ 0 <= 1 <= 1)))).
Proof.
  split; [reflexivity|].
  apply (@setup_succeeds_iff reversing_torch (world_with tiny_files) None
           (with_sizes 3 2 1) 3 2 1).
  reflexivity.
Defined.

Lemma default_config_refused_by_cifar10_witness :
  let files := files_of_sizes (Z.to_nat 50000) (Z.to_nat 10000) in
  Z.of_nat (length (train_list files)) = 50000
  /\ @setup reversing_torch (world_with files) None (__init__ default_config)
     = Raise (ValueError size_mismatch).
Proof.
  intros files.
  assert (Hlen : Z.of_nat (length (train_list files)) = 50000)
    by (vm_compute; reflexivity).
  split; [exact Hlen|].
  exact (@default_config_refused_by_cifar10 reversing_torch
           (world_with files) None files (world_with_disk files) Hlen).
Defined.

Lemma setup_keeps_configuration_witness :
  @setup reversing_torch (world_with tiny_files) None
    (__init__ (with_sizes 3 2 1)) = Ok (tt, tiny_materialized)
  /\ hparams tiny_materialized = hparams (__init__ (with_sizes 3 2 1))
  /\ transforms tiny_materialized = transforms (__init__ (with_sizes 3 2 1)).
Proof.
  split; [apply tiny_setup_run|].
  apply (@setup_keeps_configuration reversing_torch (world_with tiny_files)
           None).
  apply tiny_setup_run.
Defined.

Lemma setup_subsets_hold_train_twice_witness :
  exists train val test,
    data_train tiny_materialized = Some train
    /\ data_val tiny_materialized = Some val
    /\ data_test tiny_materialized = Some test
    /\ samples train ++ samples val ++ samples test
       ≡ₚ train_list tiny_files ++ train_list tiny_files.
Proof.
  apply (@setup_subsets_hold_train_twice reversing_torch
           (world_with tiny_files) None (with_sizes 3 2 1) tiny_files 3 2 1);
    [reflexivity | lia | lia | lia | apply world_with_disk
    | apply tiny_setup_run].
Defined.

Lemma setup_materialized_any_world_witness :
  @setup reversing_torch empty_world (Some "test") tiny_materialized
  = Ok (tt, tiny_materialized).
Proof.
  apply (@setup_materialized_any_world reversing_torch
           (world_with tiny_files) None (with_sizes 3 2 1) tiny_files 3 2 1);
    [reflexivity | lia | lia | lia | apply world_with_disk | discriminate
    | apply tiny_setup_run].
Defined.

Lemma setup_sizes_as_fractions_witness :
  let pool :=
    setup_pool "data/" (transforms (__init__ default_config)) tiny_files in
  (exists i1 i2 i3 : list nat,
     @setup reversing_torch (world_with tiny_files) None
       (__init__ (with_sizes 0 1 0)) =
       Ok (tt, with_splits (__init__ (with_sizes 0 1 0))
                 (Subset pool i1) (Subset pool i2) (Subset pool i3))
     /\ Z.of_nat (length i1) = 6 * 0
     /\ Z.of_nat (length i2) = 6 * 1
     /\ Z.of_nat (length i3) = 6 * 0
     /\ (forall i, i ∈ i1 -> i ∉ i2)
     /\ (forall i, i ∈ i1 -> i ∉ i3)
     /\ (forall i, i ∈ i2 -> i ∉ i3)
     /\ i1 ++ i2 ++ i3 ≡ₚ seq 0 (len pool))
  /\ (exists i,
        @setup reversing_torch (world_with tiny_files) None
          (__init__ (with_sizes 2 (-1) 0))
        = Raise (ValueError (fraction_out_of_range i))).
Proof.
  intros pool.
  pose proof (world_with_disk tiny_files) as Hdisk.
  destruct (@setup_sizes_as_fractions reversing_torch (world_with tiny_files)
              None (with_sizes 0 1 0) tiny_files 0 1 0 eq_refl Hdisk eq_refl)
    as [Hin _].
  destruct (@setup_sizes_as_fractions reversing_torch (world_with tiny_files)
              None (with_sizes 2 (-1) 0) tiny_files 2 (-1) 0 eq_refl Hdisk
              eq_refl) as [_ Hout].
  split.
  - apply Hin. lia.
  - apply Hout. lia.
Defined.

Lemma prepare_data_present_witness :
  prepare_data Unreachable (world_with tiny_files) (__init__ default_config)
  = Done (world_with tiny_files).
Proof.
  apply (prepare_data_present Unreachable (world_with tiny_files)
           default_config tiny_files).
  apply world_with_disk.
Defined.

Lemma prepare_data_fetches_witness :
  exists w',
    prepare_data (Serves tiny_files) empty_world (__init__ default_config)
    = Done w'
    /\ disk w' !! "data/" = Some tiny_files
    /\ (forall root, root ≠ "data/" -> disk w' !! root = disk empty_world !! root).
Proof.
  apply (prepare_data_fetches empty_world default_config tiny_files).
  reflexivity.
Defined.

Lemma prepare_data_fails_witness :
  prepare_data Unreachable empty_world (__init__ default_config)
  = Failed (URLError "urlopen error")
  /\ prepare_data Corrupted empty_world (__init__ default_config)
     = Failed (PyException (RuntimeError archive_corrupted)).
Proof.
  apply (prepare_data_fails empty_world default_config). reflexivity.
Defined.

Lemma prepare_data_idempotent_witness :
  prepare_data (Serves tiny_files) empty_world (__init__ default_config)
  = Done (world_with tiny_files)
  /\ prepare_data Unreachable (world_with tiny_files)
       (__init__ default_config)
     = Done (world_with tiny_files).
Proof.
  assert (Hfirst : prepare_data (Serves tiny_files) empty_world
                     (__init__ default_config) = Done (world_with tiny_files))
    by (vm_compute; reflexivity).
  split; [exact Hfirst|].
  exact (prepare_data_idempotent (Serves tiny_files) Unreachable empty_world
           (world_with tiny_files) default_config Hfirst).
Defined.

Lemma prepare_data_then_setup_witness :
  let run :=
    @setup reversing_torch (world_with tiny_files) None
      (__init__ (with_sizes 3 2 1)) in
  ((exists self', run = Ok (tt, self'))
   \/ run = Raise (ValueError size_mismatch)
   \/ (exists i, run = Raise (ValueError (fraction_out_of_range i))))
  /\ run ≠ Raise (RuntimeError dataset_not_found).
Proof.
  apply (@prepare_data_then_setup reversing_torch (Serves tiny_files)
           empty_world (world_with tiny_files) None (with_sizes 3 2 1)).
  vm_compute. reflexivity.
Defined.
